(** * The distributed TensorFlow skeleton as an interaction tree

    The notebook's code is glue around TensorFlow's distributed-training
    API: it builds a cluster specification and defines one function,
    [worker job_name task_index], that every process of the cluster runs.
    Each TensorFlow call is an event answered by the library; the Python
    control flow around the calls (the [if]/[elif] on [job_name], the
    [while not sess.should_stop()] loop) is the tree. *)

From Stdlib Require Import ZArith String List Bool Lia DecimalString.
From Stdlib Require DecimalPos DecimalZ.
From ITree Require Import ITree.
Import ListNotations.
Import ITreeNotations.
Local Open Scope string_scope.
Local Open Scope Z_scope.
Local Open Scope itree_scope.

(** ** Cluster set-up (module level of the skeleton cell) *)

Definition ps_hosts : list string := ["10.189.253.1:2222"].
Definition worker_hosts : list string :=
  ["10.189.253.2:2222"; "10.189.253.3:2222"].

(** [tf.train.ClusterSpec] is built from a dict job name -> hosts; the
    keys are kept in the order the dict literal lists them. *)
Definition ClusterSpec : Type := list (string * list string).

Definition cluster : ClusterSpec :=
  [("ps", ps_hosts); ("worker", worker_hosts)].

(** ** Values handed to and returned by the TensorFlow API *)

(** Keyword arguments of [tf.train.Server]. *)
Record ServerArgs : Type := {
  server_or_cluster_def : ClusterSpec;
  job_name : string;
  task_index : Z
}.

(** What the code reads of a server object: [server.target]. *)
Record Server : Type := { target : string }.

(** Keyword arguments of [tf.train.replica_device_setter]. *)
Record DeviceSetter : Type := {
  worker_device : string;
  setter_cluster : ClusterSpec
}.

(** Graph nodes. The skeleton leaves the model as [...] (Python's
    [Ellipsis]); the only node it really builds is the step counter and
    the merged summary. *)
Inductive Node : Type :=
| Ellipsis
| VariableNode (initial_value : Z) (name : string) (trainable : bool)
| MergedSummary.

Inductive Hook : Type :=
| StopAtStepHook (last_step : Z).

(** [tf.ConfigProto], with the field the skeleton sets afterwards
    ([config.gpu_options.allow_growth]). *)
Record ConfigProto : Type := {
  allow_soft_placement : bool;
  log_device_placement : bool;
  gpu_allow_growth : bool
}.

(** Keyword arguments of [tf.train.MonitoredTrainingSession]. *)
Record SessionArgs : Type := {
  config : ConfigProto;
  master : string;
  is_chief : bool;
  checkpoint_dir : string;
  hooks : list Hook
}.

(** A session handle; the library picks it. *)
Definition Session : Type := nat.

(** ** The API calls of the notebook, as events

    [join] answers in the empty type: TensorFlow documents
    [tf.train.Server.join] as "Blocks until the server has shut down. This
    method currently blocks forever", so no answer ever comes back. *)
Variant tfE : Type -> Type :=
| Server_new (a : ServerArgs) : tfE Server
| print (msg : string) (arg : Z) : tfE unit
| join (server : Server) : tfE Empty_set
| device_enter (d : DeviceSetter) : tfE unit
| device_exit : tfE unit
| Variable_new (initial_value : Z) (name : string) (trainable : bool) : tfE Node
| summary_scalar (name : string) (tensor : Node) : tfE unit
| summary_merge_all : tfE Node
| MonitoredTrainingSession (a : SessionArgs) : tfE Session
| should_stop (sess : Session) : tfE bool
| run (sess : Session) (fetches : Node) : tfE unit
| session_exit (sess : Session) : tfE unit.

(** ['...{}'.format(n)] for a Python int. *)
Definition format_int (n : Z) : string :=
  NilZero.string_of_int (Z.to_int n).

(** ** The skeleton's [worker] function *)

(** [while not sess.should_stop(): sess.run(train_op)] *)
Definition training_loop (sess : Session) (train_op : Node) : itree tfE unit :=
  ITree.iter
    (fun _ : unit =>
       stop <- ITree.trigger (should_stop sess);;
       if negb stop
       then ITree.trigger (run sess train_op);; Ret (inl tt)
       else Ret (inr tt))
    tt.

(** The arguments of the skeleton's [MonitoredTrainingSession] call. *)
Definition worker_session_args (server : Server) (task_index : Z) : SessionArgs :=
  {| config := {| allow_soft_placement := true;
                  log_device_placement := false;
                  gpu_allow_growth := true |};
     master := target server;
     is_chief := (task_index =? task_index);
     checkpoint_dir := "tem/train_logs";
     hooks := [StopAtStepHook 100000] |}.

Definition worker (job_name : string) (task_index : Z) : itree tfE unit :=
  server <- ITree.trigger
              (Server_new {| server_or_cluster_def := cluster;
                             job_name := job_name;
                             task_index := task_index |});;
  if (job_name =? "ps")%string then
    ITree.trigger (print "Start Parameter Sever: " task_index);;
    never <- ITree.trigger (join server);;
    match never : Empty_set with end
  else if (job_name =? "worker")%string then
    ITree.trigger
      (device_enter
         {| worker_device := "job:worker/task:" ++ format_int task_index;
            setter_cluster := cluster |});;
    global_step <- ITree.trigger (Variable_new 0 "global_step" false);;
    let input_placeholder := Ellipsis in
    let layer := Ellipsis in
    let prediction := Ellipsis in
    let loss := Ellipsis in
    let train_op := Ellipsis in
    ITree.trigger (summary_scalar "loss" loss);;
    summary_op <- ITree.trigger summary_merge_all;;
    ITree.trigger device_exit;;
    sess <- ITree.trigger
              (MonitoredTrainingSession (worker_session_args server task_index));;
    training_loop sess train_op;;
    ITree.trigger (session_exit sess)
  else
    Ret tt.

(** [if __name__ == '__main__': worker('ps', 0)] *)
Definition main : itree tfE unit := worker "ps" 0.

(** ** The earlier example cell

    [is_chief=(task_index == 0)  # appoint worker 0 as chief worker];
    [task_index], [server] and [ops] are free in that cell. *)
Definition example_session_args (server : Server) (task_index : Z) : SessionArgs :=
  {| config := {| allow_soft_placement := true;
                  log_device_placement := false;
                  gpu_allow_growth := false |};
     master := target server;
     is_chief := (task_index =? 0);
     checkpoint_dir := "tem/train_logs";
     hooks := [StopAtStepHook 100000] |}.

Definition example_session (server : Server) (task_index : Z) (ops : Node)
  : itree tfE unit :=
  sess <- ITree.trigger
            (MonitoredTrainingSession (example_session_args server task_index));;
  ITree.trigger (run sess ops);;
  ITree.trigger (session_exit sess).

(** ** Running a process against the library *)

(** The library's side: a state and, for each call, either an answer and
    a new state, or [None] when the call does not return to the caller
    (it blocks, or it raises: the skeleton catches nothing). *)
Definition env (St : Type) : Type := forall T, tfE T -> St -> option (T * St).

Inductive call : Type :=
| Call {T : Type} (e : tfE T).

(** How a process stands: it returned, it is inside a call that did not
    return, or it was still running when the observation stopped. *)
Inductive outcome (R : Type) : Type :=
| Returned (r : R)
| Pending
| Running.
Arguments Returned {R} r.
Arguments Pending {R}.
Arguments Running {R}.

Definition returned {R} (o : outcome R) : bool :=
  match o with Returned _ => true | _ => false end.

(** [exec h fuel s t] lets the process [t] take at most [fuel] steps and
    gives the calls it made, in order, and how it stands. *)
Fixpoint exec {St R} (h : env St) (fuel : nat) (s : St) (t : itree tfE R)
  : list call * outcome R :=
  match fuel with
  | O => ([], Running)
  | S fuel' =>
      match observe t with
      | RetF r => ([], Returned r)
      | TauF t' => exec h fuel' s t'
      | VisF e k =>
          match h _ e s with
          | None => ([Call e], Pending)
          | Some (x, s') =>
              let (calls, o) := exec h fuel' s' (k x) in (Call e :: calls, o)
          end
      end
  end.

(** The [is_chief] argument of every session a process opened. *)
Fixpoint chief_flags (calls : list call) : list bool :=
  match calls with
  | [] => []
  | Call e :: rest =>
      match e with
      | MonitoredTrainingSession a => is_chief a :: chief_flags rest
      | _ => chief_flags rest
      end
  end.

(** The task indices of a job with the given hosts: 0, 1, ... *)
Definition task_indices (hosts : list string) : list Z :=
  map Z.of_nat (seq 0 (length hosts)).

(** A sample library, to run the processes on: every call answers at
    once except [join]; the state is the value of the step counter, every
    [sess.run] adds one update, and a session asks to stop once the
    counter has reached the [last_step] of the skeleton's hook. *)
Definition sample_env : env Z :=
  fun T e =>
    match e in tfE T return Z -> option (T * Z) with
    | Server_new a => fun g => Some ({| target := "grpc://localhost:2222" |}, g)
    | print _ _ => fun g => Some (tt, g)
    | join _ => fun _ => None
    | device_enter _ => fun g => Some (tt, g)
    | device_exit => fun g => Some (tt, g)
    | Variable_new v n t => fun g => Some (VariableNode v n t, g)
    | summary_scalar _ _ => fun g => Some (tt, g)
    | summary_merge_all => fun g => Some (MergedSummary, g)
    | MonitoredTrainingSession _ => fun g => Some (O, g)
    | should_stop _ => fun g => Some (100000 <=? g, g)
    | run _ _ => fun g => Some (tt, g + 1)
    | session_exit _ => fun g => Some (tt, g)
    end.

(** ** The order of calls the skeleton prescribes *)

(** What a worker process does before its loop: the server, the graph
    inside the [with tf.device(...)] block, the session. *)
Definition worker_prologue (task_index : Z) (server : Server) : list call :=
  [Call (Server_new {| server_or_cluster_def := cluster;
                       job_name := "worker";
                       task_index := task_index |});
   Call (device_enter
           {| worker_device := "job:worker/task:" ++ format_int task_index;
              setter_cluster := cluster |});
   Call (Variable_new 0 "global_step" false);
   Call (summary_scalar "loss" Ellipsis);
   Call summary_merge_all;
   Call device_exit;
   Call (MonitoredTrainingSession (worker_session_args server task_index))].

(** [n] rounds of the loop: a poll of [should_stop], then one [run]. *)
Fixpoint training_steps (n : nat) (sess : Session) (train_op : Node) : list call :=
  match n with
  | O => []
  | S n' =>
      Call (should_stop sess) :: Call (run sess train_op)
        :: training_steps n' sess train_op
  end.

(** The last poll, which ends the loop, and the exit of the [with] block. *)
Definition loop_end (sess : Session) : list call :=
  [Call (should_stop sess); Call (session_exit sess)].

(** A whole worker process that made [n] training steps. *)
Definition worker_protocol (task_index : Z) (server : Server) (sess : Session)
           (n : nat) : list call :=
  worker_prologue task_index server
    ++ training_steps n sess Ellipsis ++ loop_end sess.

(** What a parameter-server process does. *)
Definition ps_protocol (task_index : Z) (server : Server) : list call :=
  [Call (Server_new {| server_or_cluster_def := cluster;
                       job_name := "ps";
                       task_index := task_index |});
   Call (print "Start Parameter Sever: " task_index);
   Call (join server)].

(** The [worker_device] of every [with tf.device(...)] block a process
    entered. *)
Fixpoint devices_entered (calls : list call) : list string :=
  match calls with
  | [] => []
  | Call e :: rest =>
      match e with
      | device_enter d => worker_device d :: devices_entered rest
      | _ => devices_entered rest
      end
  end.

(** A library that answers every call at once except [join], and answers
    the [k]-th poll of [should_stop] (counted from 0 in the state) with
    [answers k]. *)
Definition polling_env (answers : nat -> bool) : env nat :=
  fun T e =>
    match e in tfE T return nat -> option (T * nat) with
    | Server_new a => fun k => Some ({| target := "grpc://localhost:2222" |}, k)
    | print _ _ => fun k => Some (tt, k)
    | join _ => fun _ => None
    | device_enter _ => fun k => Some (tt, k)
    | device_exit => fun k => Some (tt, k)
    | Variable_new v n t => fun k => Some (VariableNode v n t, k)
    | summary_scalar _ _ => fun k => Some (tt, k)
    | summary_merge_all => fun k => Some (MergedSummary, k)
    | MonitoredTrainingSession _ => fun k => Some (O, k)
    | should_stop _ => fun k => Some (answers k, S k)
    | run _ _ => fun k => Some (tt, k)
    | session_exit _ => fun k => Some (tt, k)
    end.

(** * Properties *)

Section Exec.
Context {St : Type} (h : env St).

Lemma fst_push {R} (c : call) (p : list call * outcome R) :
  fst (let (calls, o) := p in (c :: calls, o)) = c :: fst p.
Proof. destruct p; reflexivity. Qed.

Lemma snd_push {R} (c : call) (p : list call * outcome R) :
  snd (let (calls, o) := p in (c :: calls, o)) = snd p.
Proof. destruct p; reflexivity. Qed.

(** [exec] sees a process only through [observe]. *)
Lemma exec_observe {R} (t t' : itree tfE R) (fuel : nat) (s : St) :
  observe t = observe t' -> exec h fuel s t = exec h fuel s t'.
Proof. intros E. destruct fuel; [reflexivity|]. cbn [exec]. now rewrite E. Qed.

(** One more step of fuel, one call answered or not. *)
Ltac call_step fuel s :=
  destruct fuel as [|fuel]; [reflexivity|]; cbn;
  match goal with
  | |- context [h ?T ?e s] =>
      let x := fresh "x" in
      let s' := fresh "s" in
      destruct (h T e s) as [[x s']|]; [|reflexivity];
      rewrite ?fst_push, ?snd_push; cbn [chief_flags]
  end.

(** The training loop and the exit of the [with] block open no session. *)
Lemma loop_opens_no_session (sess : Session) (op : Node) :
  forall fuel s,
    chief_flags (fst (exec h fuel s (training_loop sess op;;
                                     ITree.trigger (session_exit sess)))) = [].
Proof.
  induction fuel as [fuel IH] using (well_founded_induction lt_wf).
  intros s. call_step fuel s.
  destruct x.
  - call_step fuel s0. destruct fuel; reflexivity.
  - call_step fuel s0.
    destruct fuel as [|fuel]; [reflexivity|]. cbn.
    apply IH. lia.
Qed.

(** The ps branch: at most three calls, and no return. *)
Lemma ps_branch_exec (task_index : Z) (fuel : nat) (s : St) :
  returned (snd (exec h fuel s (worker "ps" task_index))) = false
  /\ chief_flags (fst (exec h fuel s (worker "ps" task_index))) = [].
Proof.
  destruct fuel as [|fuel]; [split; reflexivity|]. cbn.
  destruct (h _ _ s) as [[server s1]|]; [|split; reflexivity].
  rewrite fst_push, snd_push. cbn [chief_flags].
  destruct fuel as [|fuel]; [split; reflexivity|]. cbn.
  destruct (h _ _ s1) as [[[] s2]|]; [|split; reflexivity].
  rewrite fst_push, snd_push. cbn [chief_flags].
  destruct fuel as [|fuel]; [split; reflexivity|]. cbn.
  destruct (h _ _ s2) as [[[] _]|]. split; reflexivity.
Qed.

(** The worker branch opens its session with [is_chief] true. *)
Lemma worker_branch_flags (task_index : Z) (fuel : nat) (s : St) :
  forallb (fun b => b)
    (chief_flags (fst (exec h fuel s (worker "worker" task_index)))) = true.
Proof.
  call_step fuel s. call_step fuel s0. call_step fuel s1.
  call_step fuel s2. call_step fuel s3. call_step fuel s4.
  destruct fuel as [|fuel]; [reflexivity|]. cbn.
  destruct (h _ _ s5) as [[sess s6]|]; rewrite ?fst_push;
    cbn [fst chief_flags worker_session_args is_chief forallb];
    rewrite Z.eqb_refl; [|reflexivity].
  cbn [andb].
  rewrite (exec_observe _ (training_loop sess Ellipsis;;
                           ITree.trigger (session_exit sess))) by reflexivity.
  now rewrite loop_opens_no_session.
Qed.
End Exec.

(** The parameter-server process: whatever the library answers, and
    however long one waits, [worker 'ps' i] has not returned. *)
Lemma ps_never_returns {St} (h : env St) (task_index : Z) (fuel : nat) (s : St) :
  returned (snd (exec h fuel s (worker "ps" task_index))) = false.
Proof. apply ps_branch_exec. Qed.

(** With the sample library the process sits in [server.join()], also
    when the step counter is past the hook's last step. *)
Lemma main_waits_in_join (fuel : nat) (global_step : Z) :
  exec sample_env (3 + fuel) global_step main
  = ([Call (Server_new {| server_or_cluster_def := cluster;
                          job_name := "ps"; task_index := 0 |});
      Call (print "Start Parameter Sever: " 0);
      Call (join {| target := "grpc://localhost:2222" |})],
     Pending).
Proof. reflexivity. Qed.

(** A worker process does return once its session asks to stop. *)
Example worker_returns :
  snd (exec sample_env 20 99998 (worker "worker" 1)) = Returned tt.
Proof. reflexivity. Qed.

Lemma all_flags_true {St} (h : env St) (job_name : string) (task_index : Z)
      (fuel : nat) (s : St) :
  forallb (fun b => b)
    (chief_flags (fst (exec h fuel s (worker job_name task_index)))) = true.
Proof.
  destruct (String.eqb_spec job_name "ps") as [->|Hps].
  { now rewrite (proj2 (ps_branch_exec h task_index fuel s)). }
  destruct (String.eqb_spec job_name "worker") as [->|Hw].
  { apply worker_branch_flags. }
  apply String.eqb_neq in Hps, Hw.
  destruct fuel as [|fuel]; [reflexivity|]. cbn.
  destruct (h _ _ s) as [[server s1]|]; [|reflexivity].
  rewrite fst_push. cbn [chief_flags].
  destruct fuel as [|fuel]; [reflexivity|]. cbn.
  rewrite Hps, Hw. reflexivity.
Qed.

(** With the sample library a worker process opens exactly one session,
    and opens it as chief, whatever its task index. *)
Lemma sample_worker_flags (task_index : Z) (fuel : nat) (global_step : Z) :
  chief_flags
    (fst (exec sample_env (7 + fuel) global_step (worker "worker" task_index)))
  = [true].
Proof.
  cbn -[format_int Z.eqb]. rewrite !fst_push. cbn -[Z.eqb]. rewrite Z.eqb_refl. f_equal.
  rewrite (exec_observe _ _ (training_loop O Ellipsis;;
                             ITree.trigger (session_exit O))) by reflexivity.
  apply loop_opens_no_session.
Qed.

(** C9 (the code at [worker('ps', 0)]): the parameter-server process
    never returns from [worker]. Whatever the library answers and however
    many steps it is given, [worker 'ps' i] has not returned; run on the
    sample library, the [__main__] call makes three calls and then waits in
    [server.join()] for ever, also when the step counter has long passed
    the stop hook's [last_step], that is once training is complete. *)
Theorem ps_process_never_exits :
  (forall St (h : env St) (task_index : Z) (fuel : nat) (s : St),
      returned (snd (exec h fuel s (worker "ps" task_index))) = false)
  /\ (forall (fuel : nat) (global_step : Z),
        exec sample_env (3 + fuel) global_step main
        = ([Call (Server_new {| server_or_cluster_def := cluster;
                                job_name := "ps"; task_index := 0 |});
            Call (print "Start Parameter Sever: " 0);
            Call (join {| target := "grpc://localhost:2222" |})],
           Pending))
  /\ snd (exec sample_env 20 99998 (worker "worker" 1)) = Returned tt.
Proof.
  split; [|split].
  - intros St h task_index fuel s. apply ps_never_returns.
  - apply main_waits_in_join.
  - apply worker_returns.
Qed.

(** C10: in the skeleton's [worker], the [is_chief] argument of
    [MonitoredTrainingSession] is [task_index == task_index], which is
    true for every task index: every session a process running [worker]
    opens is opened as chief, and each of the two worker tasks of the
    cluster is chief; with the example cell's [task_index == 0] only
    worker 0 is. *)
Theorem skeleton_every_worker_is_chief :
  (forall (server : Server) (task_index : Z),
      is_chief (worker_session_args server task_index) = true)
  /\ (forall St (h : env St) (job_name : string) (task_index : Z)
             (fuel : nat) (s : St),
        forallb (fun b => b)
          (chief_flags (fst (exec h fuel s (worker job_name task_index))))
        = true)
  /\ (forall (task_index : Z) (fuel : nat) (global_step : Z),
        chief_flags
          (fst (exec sample_env (7 + fuel) global_step
                  (worker "worker" task_index)))
        = [true])
  /\ (forall server : Server,
        map (fun i => is_chief (worker_session_args server i))
          (task_indices worker_hosts) = [true; true])
  /\ (forall (server : Server) (task_index : Z),
        is_chief (example_session_args server task_index) = (task_index =? 0))
  /\ (forall server : Server,
        map (fun i => is_chief (example_session_args server i))
          (task_indices worker_hosts) = [true; false])
  /\ (forall (server : Server) (global_step : Z),
        chief_flags
          (fst (exec sample_env 3 global_step (example_session server 1 Ellipsis)))
        = [false]).
Proof.
  split; [|split; [|split; [|split; [|split; [|split]]]]].
  - intros server task_index. cbn. apply Z.eqb_refl.
  - intros St h job_name task_index fuel s. apply all_flags_true.
  - apply sample_worker_flags.
  - reflexivity.
  - reflexivity.
  - reflexivity.
  - reflexivity.
Qed.

(** ** The worker's order of calls *)

Section Protocol.
Context {St : Type} (h : env St).

(** The loop and the exit of the [with] block: whatever the library
    answers, the calls made so far are the beginning of some number of
    rounds followed by the last poll and the exit; they are all of it once
    the process has returned. *)
Lemma loop_follows_protocol (sess : Session) (op : Node) :
  forall fuel s,
    exists n rest,
      (fst (exec h fuel s (training_loop sess op;;
                           ITree.trigger (session_exit sess))) ++ rest
       = training_steps n sess op ++ loop_end sess)%list
      /\ (returned (snd (exec h fuel s (training_loop sess op;;
                                        ITree.trigger (session_exit sess))))
          = true -> rest = []).
Proof.
  induction fuel as [fuel IH] using (well_founded_induction lt_wf).
  intros s. destruct fuel as [|fuel].
  { exists O, (loop_end sess). split; [reflexivity|discriminate]. }
  cbn. destruct (h bool (should_stop sess) s) as [[stop s1]|].
  2:{ exists O, [Call (session_exit sess)]. split; [reflexivity|discriminate]. }
  rewrite fst_push, snd_push. destruct stop.
  - destruct fuel as [|fuel].
    { exists O, [Call (session_exit sess)]. split; [reflexivity|discriminate]. }
    cbn. destruct (h unit (session_exit sess) s1) as [[[] s2]|].
    2:{ exists O, []. split; [reflexivity|discriminate]. }
    rewrite fst_push, snd_push.
    exists O, []. split; [|reflexivity].
    destruct fuel; reflexivity.
  - destruct fuel as [|fuel].
    { exists O, [Call (session_exit sess)]. split; [reflexivity|discriminate]. }
    cbn. destruct (h unit (run sess op) s1) as [[[] s2]|].
    2:{ exists 1%nat, (loop_end sess). split; [reflexivity|discriminate]. }
    rewrite fst_push, snd_push.
    destruct fuel as [|fuel].
    { exists 1%nat, (loop_end sess). split; [reflexivity|discriminate]. }
    cbn.
    destruct (IH fuel ltac:(lia) s2) as (n & rest & Hcalls & Hret).
    exists (S n), rest. split; [|exact Hret].
    cbn [training_steps app]. now rewrite <- Hcalls.
Qed.

(** The process has said all it can for now: what it did so far begins
    the protocol, and it has not returned. *)
Ltac protocol_begun server sess :=
  exists server, sess, O; eexists; split; [reflexivity|discriminate].

Ltac protocol_call fuel s server sess :=
  destruct fuel as [|fuel]; [protocol_begun server sess|];
  cbn -[format_int Z.eqb];
  match goal with
  | |- context [h ?T ?e s] =>
      let x := fresh "x" in
      let s' := fresh "s" in
      destruct (h T e s) as [[x s']|]; [|protocol_begun server sess];
      rewrite ?fst_push, ?snd_push
  end.

(** A worker process, whatever the library answers: its calls so far
    begin the worker protocol for some server, session and number of
    training steps, and are the whole of it once [worker] has returned. *)
Lemma worker_follows_protocol (task_index : Z) (fuel : nat) (s : St) :
  exists server sess n rest,
    (fst (exec h fuel s (worker "worker" task_index)) ++ rest
     = worker_protocol task_index server sess n)%list
    /\ (returned (snd (exec h fuel s (worker "worker" task_index))) = true
        -> rest = []).
Proof.
  pose (nobody := {| target := "" |}).
  destruct fuel as [|fuel]; [protocol_begun nobody O|].
  cbn -[format_int Z.eqb].
  destruct (h _ _ s) as [[server s0]|]; [|protocol_begun nobody O].
  rewrite fst_push, snd_push.
  protocol_call fuel s0 server O. protocol_call fuel s1 server O.
  protocol_call fuel s2 server O. protocol_call fuel s3 server O.
  protocol_call fuel s4 server O.
  destruct fuel as [|fuel]; [protocol_begun server O|].
  cbn -[format_int Z.eqb].
  destruct (h _ _ s5) as [[sess s6]|]; [|protocol_begun server O].
  rewrite fst_push, snd_push.
  rewrite (exec_observe _ _ (training_loop sess Ellipsis;;
                             ITree.trigger (session_exit sess))) by reflexivity.
  destruct (loop_follows_protocol sess Ellipsis fuel s6)
    as (n & rest & Hcalls & Hret).
  exists server, sess, n, rest. split; [|exact Hret].
  unfold worker_protocol, worker_prologue. cbn [app].
  now rewrite Hcalls.
Qed.

(** A parameter-server process makes at most three calls. *)
Lemma ps_follows_protocol (task_index : Z) (fuel : nat) (s : St) :
  exists server rest,
    (fst (exec h fuel s (worker "ps" task_index)) ++ rest
     = ps_protocol task_index server)%list.
Proof.
  pose (nobody := {| target := "" |}).
  destruct fuel as [|fuel]; [exists nobody; eexists; reflexivity|]. cbn.
  destruct (h _ _ s) as [[server s1]|]; [|exists nobody; eexists; reflexivity].
  rewrite fst_push.
  destruct fuel as [|fuel]; [exists server; eexists; reflexivity|]. cbn.
  destruct (h _ _ s1) as [[[] s2]|]; [|exists server; eexists; reflexivity].
  rewrite fst_push.
  destruct fuel as [|fuel]; [exists server; eexists; reflexivity|]. cbn.
  destruct (h _ _ s2) as [[[] _]|]. exists server, []. reflexivity.
Qed.



End Protocol.

(** ** Counting the training steps *)

Section Polling.
Context (answers : nat -> bool).

(** From the [k]-th poll on: [n] polls answered [False], then one
    answered [True], make [n] training steps and end the loop. *)
Lemma loop_counts_polls (sess : Session) (op : Node) :
  forall n k extra,
    (forall j, (j < n)%nat -> answers (k + j) = false) ->
    answers (k + n) = true ->
    exec (polling_env answers) (3 * n + 3 + extra) k
      (training_loop sess op;; ITree.trigger (session_exit sess))
    = ((training_steps n sess op ++ loop_end sess)%list, Returned tt).
Proof.
  induction n as [|n IH]; intros k extra Hfalse Htrue.
  - rewrite Nat.add_0_r in Htrue. cbn. rewrite Htrue. reflexivity.
  - replace (3 * S n + 3 + extra)%nat with (S (S (S (3 * n + 3 + extra)))) by lia.
    assert (answers k = false) as Hk
        by (rewrite <- (Nat.add_0_r k); apply Hfalse; lia).
    cbn -[Nat.mul Nat.add]. rewrite Hk. cbn -[Nat.mul Nat.add].
    match goal with
    | |- context [exec ?e ?fuel ?s ?t] =>
        change (exec e fuel s t)
          with (exec e fuel s (training_loop sess op;;
                               ITree.trigger (session_exit sess)))
    end.
    rewrite (IH (S k) extra).
    + reflexivity.
    + intros j Hj. replace (S k + j)%nat with (k + S j)%nat by lia.
      apply Hfalse. lia.
    + now replace (S k + n)%nat with (k + S n)%nat by lia.
Qed.

Lemma worker_counts_polls (task_index : Z) (n extra : nat) :
  (forall j, (j < n)%nat -> answers j = false) ->
  answers n = true ->
  exec (polling_env answers) (3 * n + 10 + extra) O (worker "worker" task_index)
  = (worker_protocol task_index {| target := "grpc://localhost:2222" |} O n,
     Returned tt).
Proof.
  intros Hfalse Htrue.
  replace (3 * n + 10 + extra)%nat
    with (S (S (S (S (S (S (S (3 * n + 3 + extra)))))))) by lia.
  cbn -[format_int Z.eqb Nat.mul Nat.add].
  rewrite (exec_observe _ _ (training_loop O Ellipsis;;
                             ITree.trigger (session_exit O))) by reflexivity.
  rewrite loop_counts_polls; [reflexivity|exact Hfalse|exact Htrue].
Qed.
End Polling.

(** ** Device names *)

(** The decimal text of a task index reads back as that index. *)
Lemma format_int_parses (n : Z) :
  NilZero.int_of_string (format_int n) = Some (Z.to_int n).
Proof.
  unfold format_int. apply NilZero.isi.
  - destruct n as [|p|p]; cbn; try discriminate.
    intros E. injection E as E. now apply (DecimalPos.Unsigned.to_uint_nonnil p).
  - destruct n as [|p|p]; cbn; try discriminate.
    intros E. injection E as E. now apply (DecimalPos.Unsigned.to_uint_nonnil p).
Qed.

Lemma format_int_inj (i j : Z) : format_int i = format_int j -> i = j.
Proof.
  intros E. apply DecimalZ.to_int_inj.
  assert (Some (Z.to_int i) = Some (Z.to_int j)) as E'
      by (rewrite <- !format_int_parses; now rewrite E).
  now injection E'.
Qed.

Lemma devices_entered_app (l l' : list call) :
  devices_entered (l ++ l') = (devices_entered l ++ devices_entered l')%list.
Proof.
  induction l as [|[T e] l IH]; [reflexivity|].
  destruct e; cbn; now rewrite IH.
Qed.

Lemma training_steps_enter_no_device (n : nat) (sess : Session) (op : Node) :
  devices_entered (training_steps n sess op) = [].
Proof. induction n as [|n IH]; [reflexivity|exact IH]. Qed.

Lemma worker_protocol_device (task_index : Z) (server : Server) (sess : Session)
      (n : nat) :
  devices_entered (worker_protocol task_index server sess n)
  = ["job:worker/task:" ++ format_int task_index].
Proof.
  unfold worker_protocol. rewrite !devices_entered_app.
  now rewrite training_steps_enter_no_device.
Qed.

(** The only device a worker process enters is the one of its task. *)
Lemma worker_devices_entered {St} (h : env St) (task_index : Z) (fuel : nat)
      (s : St) (d : string) :
  In d (devices_entered (fst (exec h fuel s (worker "worker" task_index)))) ->
  d = "job:worker/task:" ++ format_int task_index.
Proof.
  intros Hd.
  destruct (worker_follows_protocol h task_index fuel s)
    as (server & sess & n & rest & Hcalls & _).
  apply (f_equal devices_entered) in Hcalls.
  rewrite devices_entered_app, worker_protocol_device in Hcalls.
  assert (In d ["job:worker/task:" ++ format_int task_index]) as [E|[]]
      by (rewrite <- Hcalls; apply in_or_app; now left).
  now symmetry.
Qed.

(** * Further properties of [worker] *)






(** X4: the worker makes exactly as many training steps as polls of
    [should_stop] were answered [False] before the first [True]: with [n]
    such polls, and every other call answered, the process returns after
    the protocol with [n] steps. *)
Theorem worker_trains_until_first_stop :
  forall (answers : nat -> bool) (task_index : Z) (n extra : nat),
    (forall j, (j < n)%nat -> answers j = false) ->
    answers n = true ->
    exec (polling_env answers) (3 * n + 10 + extra) O
      (worker "worker" task_index)
    = (worker_protocol task_index {| target := "grpc://localhost:2222" |} O n,
       Returned tt).
Proof. apply worker_counts_polls. Qed.

Lemma worker_trains_until_first_stop_witness :
  ((forall j, (j < 2)%nat -> Nat.leb 2 j = false) /\ Nat.leb 2 2 = true)
  /\ exec (polling_env (Nat.leb 2)) 16 O (worker "worker" 1)
     = (worker_protocol 1 {| target := "grpc://localhost:2222" |} O 2,
        Returned tt).
Proof.
  assert (forall j, (j < 2)%nat -> Nat.leb 2 j = false) as Hfalse.
  { intros [|[|j]] Hj; [reflexivity|reflexivity|lia]. }
  split; [split; [exact Hfalse|reflexivity]|].
  apply (worker_trains_until_first_stop (Nat.leb 2) 1 2%nat 0%nat Hfalse).
  reflexivity.
Defined.



(** X6: whatever the library answers, a parameter-server process
    makes at most three calls, in this order: the server, the print, the
    join; it builds no graph and opens no session. *)
Theorem ps_calls_begin_protocol :
  forall St (h : env St) (task_index : Z) (fuel : nat) (s : St),
    exists server rest,
      (fst (exec h fuel s (worker "ps" task_index)) ++ rest
       = ps_protocol task_index server)%list.
Proof. intros St h. apply ps_follows_protocol. Qed.

(** X7: every worker task builds its graph under a device name of its
    own: a device name entered by the worker process of one task index is
    never entered by the worker process of another, whatever the library
    answers to either. *)
Theorem worker_device_per_task :
  forall St St' (h : env St) (h' : env St') (i j : Z) (fuel fuel' : nat)
         (s : St) (s' : St') (d : string),
    i <> j ->
    In d (devices_entered (fst (exec h fuel s (worker "worker" i)))) ->
    ~ In d (devices_entered (fst (exec h' fuel' s' (worker "worker" j)))).
Proof.
  intros St St' h h' i j fuel fuel' s s' d Hij Hi Hj.
  apply worker_devices_entered in Hi, Hj.
  apply Hij, format_int_inj.
  rewrite Hi in Hj. cbn in Hj. now injection Hj.
Qed.

Lemma worker_device_per_task_witness :
  (0 <> 1
   /\ In "job:worker/task:0"
        (devices_entered (fst (exec sample_env 10 0 (worker "worker" 0)))))
  /\ ~ In "job:worker/task:0"
        (devices_entered (fst (exec sample_env 10 0 (worker "worker" 1)))).
Proof.
  split; [split; [discriminate|simpl; left; reflexivity]|].
  apply (worker_device_per_task Z Z sample_env sample_env 0 1 10%nat 10%nat 0 0).
  - discriminate.
  - simpl. left. reflexivity.
Defined.
